(** * Income-tax calculator

    Shallow embedding of [src/lib/tax-calculations.ts] and proofs of the
    properties its specification states about [calculateTax].

    A TypeScript [number] is an IEEE 754 binary64 value, while the
    specification types every input and every field of the result as a
    real number, "unrounded".  The function is therefore transcribed once,
    over an interface [Number] of the arithmetic it uses, and read at two
    instances:
    - [Q], exact rational arithmetic, where the universally quantified
      properties are stated and proved;
    - [float], Rocq's primitive binary64 numbers, where the concrete
      scenarios are replayed with the rounding the program really performs.

    Where rounding breaks an exact statement, the exact statement is kept
    as a lemma of exact arithmetic, its failure is replayed on [float], and
    the property is stated with a margin that rounding cannot close: a
    tolerance, or a least distance between the inputs compared. *)

From Stdlib Require Import QArith Qminmax Qabs Lqa Bool PrimFloat.
From Stdlib Require Import String List.
Import ListNotations.

#[local] Set Warnings "-inexact-float".

(** ** The arithmetic used by the program *)

Declare Scope num_scope.
Delimit Scope num_scope with num.

(** [lit] reads a decimal literal of the source; the four operators and
    [Math.max]/[Math.min] are the only operations [calculateTax] applies. *)
Class Number (num : Type) : Type := {
  lit : Q -> num;
  num_add : num -> num -> num;
  num_sub : num -> num -> num;
  num_mul : num -> num -> num;
  num_div : num -> num -> num;
  Math_max : num -> num -> num;
  Math_min : num -> num -> num
}.

Arguments lit {num _} q%_Q.

Infix "+" := num_add : num_scope.
Infix "-" := num_sub : num_scope.
Infix "*" := num_mul : num_scope.
Infix "/" := num_div : num_scope.

(** Exact arithmetic: the reading of the specification's data model. *)
#[export] Instance Q_Number : Number Q := {|
  lit := fun q => q;
  num_add := Qplus;
  num_sub := Qminus;
  num_mul := Qmult;
  num_div := Qdiv;
  Math_max := Qmax;
  Math_min := Qmin
|}.

(** Binary64 arithmetic.  An integer below 2^53 is built exactly from its
    binary digits; a decimal literal [n/10^k] is the correctly rounded
    quotient of two such integers, which is the double the literal denotes. *)
Fixpoint float_of_positive (p : positive) : float :=
  match p with
  | xH => 1%float
  | xO p' => (2 * float_of_positive p')%float
  | xI p' => (2 * float_of_positive p' + 1)%float
  end.

Definition float_of_Z (z : Z) : float :=
  match z with
  | Z0 => 0%float
  | Zpos p => float_of_positive p
  | Zneg p => (- float_of_positive p)%float
  end.

Definition float_lit (q : Q) : float :=
  (float_of_Z (Qnum q) / float_of_positive (Qden q))%float.

(** [Math.max] and [Math.min] of ECMAScript on two arguments: NaN if either
    argument is NaN, and [+0] counts as larger than [-0]. *)
Definition float_Math_max (a b : float) : float :=
  if is_nan a || is_nan b then nan
  else if (a <? b)%float then b
  else if (b <? a)%float then a
  else if get_sign a then b else a.

Definition float_Math_min (a b : float) : float :=
  if is_nan a || is_nan b then nan
  else if (a <? b)%float then a
  else if (b <? a)%float then b
  else if get_sign a then a else b.

#[export] Instance float_Number : Number float := {|
  lit := float_lit;
  num_add := PrimFloat.add;
  num_sub := PrimFloat.sub;
  num_mul := PrimFloat.mul;
  num_div := PrimFloat.div;
  Math_max := float_Math_max;
  Math_min := float_Math_min
|}.

(** ** The result record and the calculator *)

Section Calculator.

Context {num : Type} `{Number num}.
Local Open Scope num_scope.

(** [interface TaxResults], lines 1-17. *)
Record TaxResults : Type := {
  grossSalary : num;
  basicPay : num;
  standardDeduction : num;
  taxableIncome : num;
  incomeTax : num;
  cess : num;
  totalTax : num;
  netSalary : num;
  employeePF : num;
  employerPF : num;
  gratuityAmount : num;
  professionalTax : num;
  totalDeductions : num;
  inHandSalary : num;
  inHandSalaryPerMonth : num
}.

(** [calculateTax], lines 19-98.  The two flags are the parameters with a
    default of [false]; a call that omits them passes [false]. *)
Definition calculateTax (grossSalary basicPayPercentage : num)
    (employerPfIncluded considerGratuity : bool) : TaxResults :=
  (* Constants *)
  let STANDARD_DEDUCTION := lit 75000 in
  let PF_RATE := lit 0.12 in
  let CESS_RATE := lit 0.04 in
  let GRATUITY_RATE := lit 0.0481 in
  (* Ensure Basic Pay is at least 50% of gross salary *)
  let actualBasicPayPercentage := Math_max (lit 50) basicPayPercentage in
  let basicPay := grossSalary * (actualBasicPayPercentage / lit 100) in
  (* Calculate PF deductions *)
  let employeePF := basicPay * PF_RATE in
  let employerPF := basicPay * PF_RATE in
  (* Calculate gratuity amount if applicable *)
  let gratuityAmount :=
    if considerGratuity then basicPay * GRATUITY_RATE else lit 0 in
  let totalPFDeduction :=
    if employerPfIncluded then employeePF + employerPF else employeePF in
  (* Calculate net salary *)
  let netSalary := grossSalary - gratuityAmount - totalPFDeduction in
  (* Calculate taxable income *)
  let taxableIncome := Math_max (lit 0) (grossSalary - STANDARD_DEDUCTION) in
  (* Calculate income tax using the slabs *)
  let incomeTax :=
    lit 0.05 * Math_max (lit 0) (Math_min taxableIncome (lit 800000) - lit 400000) +
    lit 0.1 * Math_max (lit 0) (Math_min taxableIncome (lit 1200000) - lit 800000) +
    lit 0.15 * Math_max (lit 0) (Math_min taxableIncome (lit 1600000) - lit 1200000) +
    lit 0.2 * Math_max (lit 0) (Math_min taxableIncome (lit 2000000) - lit 1600000) +
    lit 0.25 * Math_max (lit 0) (Math_min taxableIncome (lit 2400000) - lit 2000000) +
    lit 0.3 * Math_max (lit 0) (taxableIncome - lit 2400000) in
  (* Calculate cess *)
  let cess := incomeTax * CESS_RATE in
  let professionalTax := lit 12 * lit 200 in
  (* Calculate total tax *)
  let totalTax := incomeTax + cess + professionalTax in
  let totalDeductions := gratuityAmount + totalPFDeduction in
  (* Calculate in-hand salary *)
  let inHandSalary := netSalary - totalTax in
  let inHandSalaryPerMonth := inHandSalary / lit 12 in
  {| grossSalary := grossSalary;
     basicPay := basicPay;
     standardDeduction := STANDARD_DEDUCTION;
     taxableIncome := taxableIncome;
     incomeTax := incomeTax;
     cess := cess;
     totalTax := totalTax;
     netSalary := netSalary;
     employeePF := employeePF;
     employerPF := employerPF;
     gratuityAmount := gratuityAmount;
     professionalTax := professionalTax;
     totalDeductions := totalDeductions;
     inHandSalary := inHandSalary;
     inHandSalaryPerMonth := inHandSalaryPerMonth |}.

(** The slab expression of lines 57-63 as a function of the taxable income
    it is applied to. *)
Definition slabTax (taxableIncome : num) : num :=
  lit 0.05 * Math_max (lit 0) (Math_min taxableIncome (lit 800000) - lit 400000) +
  lit 0.1 * Math_max (lit 0) (Math_min taxableIncome (lit 1200000) - lit 800000) +
  lit 0.15 * Math_max (lit 0) (Math_min taxableIncome (lit 1600000) - lit 1200000) +
  lit 0.2 * Math_max (lit 0) (Math_min taxableIncome (lit 2000000) - lit 1600000) +
  lit 0.25 * Math_max (lit 0) (Math_min taxableIncome (lit 2400000) - lit 2000000) +
  lit 0.3 * Math_max (lit 0) (taxableIncome - lit 2400000).

End Calculator.

Arguments TaxResults num : clear implicits.


(** ** The results table: src/components/tax-results-table.tsx *)

(** The component computes a description and a list of rows from its
    props, and maps each row to four table cells.  That data is embedded
    here; the element tree around it (card, headings, animation and class
    names) is not.  [formatCurrency] and [formatLPA] are imported from a
    module outside the two source files and are taken as parameters. *)

(** The values of the [type] field of a row. *)
Inductive RowType : Type := salary | taxable | deduction | tax.

Section ResultsTable.

Context {num : Type} `{Number num}.
Local Open Scope num_scope.
Local Open Scope string_scope.

(** A row object; [isHighlighted] and [isFinal] are absent from some of the
    object literals. *)
Record Row : Type := {
  label : string;
  value : num;
  isHighlighted : option bool;
  isFinal : option bool;
  type : RowType
}.

(** Lines 35-45: the description starts empty and is assigned in an
    [if]/[else if] chain on the two toggles. *)
Definition cardDescription (gratuityIncluded employerPfIncluded : bool) : string :=
  if negb employerPfIncluded && negb gratuityIncluded then
    "Breakdown with Employer PF included in CTC (12% of Basic Pay)"
  else if negb employerPfIncluded && gratuityIncluded then
    "Breakdown with Gratuity included in CTC (4.81% of Basic Pay)"
  else if employerPfIncluded && negb gratuityIncluded then
    "Breakdown with both Employer PF and Employee PF included in CTC (24% of Basic Pay)"
  else if employerPfIncluded && gratuityIncluded then
    "Breakdown with both Employer PF and Employee PF included in CTC (24% of Basic Pay) and Gratuity included in CTC (4.81% of Basic Pay)"
  else "".

(** Lines 48-52. *)
Definition baseRows (results : TaxResults num) : list Row :=
  [ {| label := "Gross Salary"; value := grossSalary results;
       isHighlighted := Some true; isFinal := None; type := salary |};
    {| label := "Taxable Income (Gross Salary - Standard Deduction)";
       value := taxableIncome results;
       isHighlighted := None; isFinal := None; type := taxable |};
    {| label := "Basic Pay"; value := basicPay results;
       isHighlighted := Some true; isFinal := None; type := salary |} ].

(** Lines 55-61. *)
Definition pfRows (results : TaxResults num) (employerPfIncluded : bool) : list Row :=
  if employerPfIncluded then
    [ {| label := "Employee PF Deduction (6%)"; value := employeePF results;
         isHighlighted := None; isFinal := None; type := deduction |};
      {| label := "Employer PF Deduction (6%)"; value := employeePF results;
         isHighlighted := None; isFinal := None; type := deduction |};
      {| label := "Total PF Deduction (12%)"; value := employeePF results * lit 2;
         isHighlighted := Some false; isFinal := None; type := deduction |} ]
  else
    [ {| label := "Employee PF Deduction (6%)"; value := employeePF results;
         isHighlighted := None; isFinal := None; type := deduction |} ].

(** Lines 63-67. *)
Definition gratuityRow (results : TaxResults num) (gratuityIncluded : bool) : list Row :=
  if gratuityIncluded then
    [ {| label := "Gratuity Deduction (4.81%)"; value := gratuityAmount results;
         isHighlighted := Some false; isFinal := None; type := deduction |} ]
  else [].

(** Lines 69-71. *)
Definition netSalaryRow (results : TaxResults num) : list Row :=
  [ {| label := "Net Salary (After Deductions)"; value := netSalary results;
       isHighlighted := Some true; isFinal := None; type := salary |} ].

(** Lines 73-78. *)
Definition taxRow (results : TaxResults num) : list Row :=
  [ {| label := "Income Tax"; value := incomeTax results;
       isHighlighted := None; isFinal := None; type := tax |};
    {| label := "Health & Education CESS (4%)"; value := cess results;
       isHighlighted := None; isFinal := None; type := tax |};
    {| label := "Professional Tax"; value := professionalTax results;
       isHighlighted := None; isFinal := None; type := tax |};
    {| label := "Total Tax"; value := totalTax results;
       isHighlighted := Some true; isFinal := None; type := tax |} ].

(** Lines 81-83. *)
Definition finalRow (results : TaxResults num) : list Row :=
  [ {| label := "In-hand Salary Per Year"; value := inHandSalary results;
       isHighlighted := Some true; isFinal := Some true; type := salary |} ].

(** Line 86: all rows, in display order. *)
Definition rows (results : TaxResults num)
    (gratuityIncluded employerPfIncluded : bool) : list Row :=
  baseRows results ++ pfRows results employerPfIncluded ++
  gratuityRow results gratuityIncluded ++ netSalaryRow results ++
  taxRow results ++ finalRow results.

Variable formatCurrency : num -> string.
Variable formatLPA : num -> string.

(** A table row of the body: its React key and the text of its four
    cells (lines 131-153). *)
Record TableRow : Type := {
  key : string;
  cells : list string
}.

Definition tableBody (rs : list Row) : list TableRow :=
  map (fun row =>
         {| key := label row;
            cells := [ label row;
                       formatCurrency (value row);
                       formatCurrency (value row / lit 12);
                       formatLPA (value row) ] |}) rs.

(** Lines 28-162.  [isMounted] is the component's state; nothing is
    rendered while it is [false] (lines 88-90). *)
Definition TaxResultsTable (isMounted : bool) (results : TaxResults num)
    (gratuityIncluded employerPfIncluded : bool)
    : option (string * list TableRow) :=
  if negb isMounted then None
  else Some (cardDescription gratuityIncluded employerPfIncluded,
             tableBody (rows results gratuityIncluded employerPfIncluded)).

(** The value of the first row labelled [l], if any. *)
Definition valueOf (l : string) (rs : list Row) : option num :=
  option_map value (find (fun row => String.eqb (label row) l) rs).

End ResultsTable.

(** Two results in exact arithmetic denote the same amounts, field by
    field. *)
Definition TaxResults_eq (r1 r2 : TaxResults Q) : Prop :=
  (grossSalary r1 == grossSalary r2 /\ basicPay r1 == basicPay r2 /\
   standardDeduction r1 == standardDeduction r2 /\
   taxableIncome r1 == taxableIncome r2 /\ incomeTax r1 == incomeTax r2 /\
   cess r1 == cess r2 /\ totalTax r1 == totalTax r2 /\
   netSalary r1 == netSalary r2 /\ employeePF r1 == employeePF r2 /\
   employerPF r1 == employerPF r2 /\
   gratuityAmount r1 == gratuityAmount r2 /\
   professionalTax r1 == professionalTax r2 /\
   totalDeductions r1 == totalDeductions r2 /\
   inHandSalary r1 == inHandSalary r2 /\
   inHandSalaryPerMonth r1 == inHandSalaryPerMonth r2)%Q.



(** ** Literals of the source in binary64 *)

(** Every literal of [calculateTax] is read by [float_lit] as the double
    that the same literal denotes. *)
Lemma float_lit_source_literals :
  float_lit 75000 = 75000%float /\ float_lit 0.12 = 0.12%float /\
  float_lit 0.04 = 0.04%float /\ float_lit 0.0481 = 0.0481%float /\
  float_lit 50 = 50%float /\ float_lit 100 = 100%float /\
  float_lit 0 = 0%float /\ float_lit 12 = 12%float /\
  float_lit 200 = 200%float /\
  float_lit 0.05 = 0.05%float /\ float_lit 0.1 = 0.1%float /\
  float_lit 0.15 = 0.15%float /\ float_lit 0.2 = 0.2%float /\
  float_lit 0.25 = 0.25%float /\ float_lit 0.3 = 0.3%float /\
  float_lit 400000 = 400000%float /\ float_lit 800000 = 800000%float /\
  float_lit 1200000 = 1200000%float /\ float_lit 1600000 = 1600000%float /\
  float_lit 2000000 = 2000000%float /\ float_lit 2400000 = 2400000%float.
Proof. repeat split; vm_compute; reflexivity. Qed.

(** ** Properties that hold in any arithmetic *)

(** The two properties below only compare sub-expressions of [calculateTax]
    with each other, so they hold whatever the numbers are: in exact
    arithmetic and in binary64, NaN and infinities included. *)
Section AnyArithmetic.

Context {num : Type} `{Number num}.
Local Open Scope num_scope.

Implicit Types (g b : num) (e c : bool).

(** C5: two runs that differ only in the flags employerPfIncluded and
    considerGratuity return the same taxableIncome, incomeTax, cess and
    totalTax; the flags can only change netSalary, gratuityAmount,
    totalDeductions, inHandSalary and inHandSalaryPerMonth, every other
    field being the same in both runs. *)
Theorem flags_leave_tax_unchanged g b e1 c1 e2 c2 :
  let r1 := calculateTax g b e1 c1 in
  let r2 := calculateTax g b e2 c2 in
  (taxableIncome r1 = taxableIncome r2 /\ incomeTax r1 = incomeTax r2 /\
   cess r1 = cess r2 /\ totalTax r1 = totalTax r2) /\
  (grossSalary r1 = grossSalary r2 /\ basicPay r1 = basicPay r2 /\
   standardDeduction r1 = standardDeduction r2 /\
   employeePF r1 = employeePF r2 /\ employerPF r1 = employerPF r2 /\
   professionalTax r1 = professionalTax r2).
Proof. cbv zeta. repeat split. Qed.

(** C6: for every input employeePF = employerPF, both being
    basicPay * 0.12, and employerPF does not depend on the
    employerPfIncluded flag. *)
Theorem employeePF_equals_employerPF g b e c :
  let r := calculateTax g b e c in
  employeePF r = employerPF r /\
  employeePF r = basicPay r * lit 0.12 /\
  employerPF r = basicPay r * lit 0.12 /\
  employerPF (calculateTax g b true c) = employerPF (calculateTax g b false c).
Proof. cbv zeta. repeat split. Qed.

End AnyArithmetic.

(** ** Exact arithmetic: the fields of the result *)

Section Exact.

Local Open Scope Q_scope.

Implicit Types (g b t : Q) (e c : bool).

Lemma basicPay_exact g b e c :
  basicPay (calculateTax g b e c) = g * (Qmax 50 b / 100).
Proof. reflexivity. Qed.

Lemma employeePF_exact g b e c :
  employeePF (calculateTax g b e c) = g * (Qmax 50 b / 100) * 0.12.
Proof. reflexivity. Qed.

Lemma gratuityAmount_exact g b e c :
  gratuityAmount (calculateTax g b e c) =
  if c then g * (Qmax 50 b / 100) * 0.0481 else 0.
Proof. reflexivity. Qed.

Lemma taxableIncome_exact g b e c :
  taxableIncome (calculateTax g b e c) = Qmax 0 (g - 75000).
Proof. reflexivity. Qed.

Lemma incomeTax_slabTax g b e c :
  incomeTax (calculateTax g b e c) = slabTax (taxableIncome (calculateTax g b e c)).
Proof. reflexivity. Qed.

Lemma cess_exact g b e c :
  cess (calculateTax g b e c) = incomeTax (calculateTax g b e c) * 0.04.
Proof. reflexivity. Qed.

Lemma totalTax_exact g b e c :
  totalTax (calculateTax g b e c) =
  incomeTax (calculateTax g b e c) + cess (calculateTax g b e c) + 12 * 200.
Proof. reflexivity. Qed.

Lemma netSalary_exact g b e c :
  netSalary (calculateTax g b e c) =
  g - gratuityAmount (calculateTax g b e c)
    - (if e then employeePF (calculateTax g b e c) + employerPF (calculateTax g b e c)
       else employeePF (calculateTax g b e c)).
Proof. reflexivity. Qed.

Lemma inHandSalary_exact g b e c :
  inHandSalary (calculateTax g b e c) =
  netSalary (calculateTax g b e c) - totalTax (calculateTax g b e c).
Proof. reflexivity. Qed.

(** *** Case analysis on [Math.max] and [Math.min] *)

(** Each [Qmax]/[Qmin] is replaced by a fresh variable constrained by its
    two-case specification, which leaves a linear problem. *)
Ltac minmax_cases :=
  repeat match goal with
  | |- context [Qmax ?x ?y] =>
      let m := fresh "m" in
      pose proof (Q.max_spec x y); set (m := Qmax x y) in *; clearbody m
  | |- context [Qmin ?x ?y] =>
      let m := fresh "m" in
      pose proof (Q.min_spec x y); set (m := Qmin x y) in *; clearbody m
  | _ : context [Qmax ?x ?y] |- _ =>
      let m := fresh "m" in
      pose proof (Q.max_spec x y); set (m := Qmax x y) in *; clearbody m
  | _ : context [Qmin ?x ?y] |- _ =>
      let m := fresh "m" in
      pose proof (Q.min_spec x y); set (m := Qmin x y) in *; clearbody m
  end.

Ltac minmax_lra := minmax_cases; lra.

(** *** One slab *)

(** The part of [t] that falls in the slab from [lo] to [hi]. *)
Lemma slab_nonneg lo hi t : 0 <= Qmax 0 (Qmin t hi - lo).
Proof. minmax_lra. Qed.

Lemma slab_increment lo hi t t' :
  t <= t' ->
  0 <= Qmax 0 (Qmin t' hi - lo) - Qmax 0 (Qmin t hi - lo) <= t' - t.
Proof. intros Htt'. minmax_lra. Qed.

Lemma top_slab_increment lo t t' :
  t <= t' ->
  0 <= Qmax 0 (t' - lo) - Qmax 0 (t - lo) <= t' - t.
Proof. intros Htt'. minmax_lra. Qed.

(** The six slabs partition the income above 400000. *)
Lemma slabs_partition t :
  Qmax 0 (Qmin t 800000 - 400000) + Qmax 0 (Qmin t 1200000 - 800000) +
  Qmax 0 (Qmin t 1600000 - 1200000) + Qmax 0 (Qmin t 2000000 - 1600000) +
  Qmax 0 (Qmin t 2400000 - 2000000) + Qmax 0 (t - 2400000)
  == Qmax 0 (t - 400000).
Proof. minmax_lra. Qed.

(** *** The slab schedule *)

Ltac exact_ops :=
  cbv [slabTax lit num_add num_sub num_mul num_div Math_max Math_min Q_Number].

Lemma slabTax_nonneg t : 0 <= slabTax t.
Proof.
  exact_ops.
  pose proof (slab_nonneg 400000 800000 t).
  pose proof (slab_nonneg 800000 1200000 t).
  pose proof (slab_nonneg 1200000 1600000 t).
  pose proof (slab_nonneg 1600000 2000000 t).
  pose proof (slab_nonneg 2000000 2400000 t).
  pose proof (top_slab_increment 2400000 t t (Qle_refl t)).
  pose proof (Q.le_max_l 0 (t - 2400000)).
  lra.
Qed.

(** Between two incomes the tax grows at a marginal rate between 5% of the
    income gained above 400000 and 30% of the income gained. *)
Lemma slabTax_increment t t' :
  t <= t' ->
  0.05 * (Qmax 0 (t' - 400000) - Qmax 0 (t - 400000))
    <= slabTax t' - slabTax t <= 0.3 * (t' - t).
Proof.
  intros Htt'. exact_ops.
  pose proof (slab_increment 400000 800000 t t' Htt').
  pose proof (slab_increment 800000 1200000 t t' Htt').
  pose proof (slab_increment 1200000 1600000 t t' Htt').
  pose proof (slab_increment 1600000 2000000 t t' Htt').
  pose proof (slab_increment 2000000 2400000 t t' Htt').
  pose proof (top_slab_increment 2400000 t t' Htt').
  pose proof (top_slab_increment 400000 t t' Htt').
  pose proof (slabs_partition t).
  pose proof (slabs_partition t').
  lra.
Qed.

Lemma slabTax_monotone t t' : t <= t' -> slabTax t <= slabTax t'.
Proof.
  intros Htt'.
  pose proof (slabTax_increment t t' Htt').
  pose proof (top_slab_increment 400000 t t' Htt').
  lra.
Qed.


Lemma slabTax_below_first_slab t : t <= 400000 -> slabTax t == 0.
Proof. intros Ht. exact_ops. minmax_lra. Qed.



(** [slabTax] is at most 0.3-Lipschitz. *)
Lemma slabTax_lipschitz t t' :
  Qabs (slabTax t - slabTax t') <= 0.3 * Qabs (t - t').
Proof.
  destruct (Qlt_le_dec t t') as [Hlt | Hle].
  - pose proof (slabTax_increment t t' (Qlt_le_weak _ _ Hlt)).
    pose proof (top_slab_increment 400000 t t' (Qlt_le_weak _ _ Hlt)).
    rewrite (Qabs_neg (slabTax t - slabTax t')) by lra.
    rewrite (Qabs_neg (t - t')) by lra. lra.
  - pose proof (slabTax_increment t' t Hle).
    pose proof (top_slab_increment 400000 t' t Hle).
    rewrite (Qabs_pos (slabTax t - slabTax t')) by lra.
    rewrite (Qabs_pos (t - t')) by lra. lra.
Qed.

(** ** Properties of [calculateTax] in exact arithmetic *)


(** The effective basic-pay fraction is at least one half. *)
Lemma basic_fraction_floor b : 0.5 <= Qmax 50 b / 100.
Proof.
  assert (Qmax 50 b / 100 == Qmax 50 b * 0.01) as -> by field.
  minmax_lra.
Qed.

Lemma basicPay_nonneg g b e c : 0 <= g -> 0 <= basicPay (calculateTax g b e c).
Proof.
  intros Hg. rewrite basicPay_exact.
  apply Qmult_le_0_compat; [exact Hg |].
  pose proof (basic_fraction_floor b). lra.
Qed.

Lemma totalTax_lower_bound g b e c : 2400 <= totalTax (calculateTax g b e c).
Proof.
  rewrite totalTax_exact, cess_exact, incomeTax_slabTax.
  pose proof (slabTax_nonneg (taxableIncome (calculateTax g b e c))). lra.
Qed.

(** C2: the income tax, as a function of the taxable income of the result,
    is non-decreasing and continuous (for every eps there is a delta such
    that taxable incomes closer than delta give income taxes closer than
    eps), everywhere and so across the bracket boundaries; it is 0 at
    taxable income 400000, 20000 at 800000 and 60000 at 1200000, values
    reached at gross salaries 475000, 875000 and 1275000. *)
Theorem incomeTax_continuous_nondecreasing :
  (forall g1 b1 e1 c1 g2 b2 e2 c2,
     taxableIncome (calculateTax g1 b1 e1 c1)
       <= taxableIncome (calculateTax g2 b2 e2 c2) ->
     incomeTax (calculateTax g1 b1 e1 c1)
       <= incomeTax (calculateTax g2 b2 e2 c2)) /\
  (forall eps, 0 < eps -> exists delta, 0 < delta /\
     forall g1 b1 e1 c1 g2 b2 e2 c2,
       Qabs (taxableIncome (calculateTax g1 b1 e1 c1)
             - taxableIncome (calculateTax g2 b2 e2 c2)) < delta ->
       Qabs (incomeTax (calculateTax g1 b1 e1 c1)
             - incomeTax (calculateTax g2 b2 e2 c2)) < eps) /\
  (forall g b e c,
     (taxableIncome (calculateTax g b e c) == 400000 ->
      incomeTax (calculateTax g b e c) == 0) /\
     (taxableIncome (calculateTax g b e c) == 800000 ->
      incomeTax (calculateTax g b e c) == 20000) /\
     (taxableIncome (calculateTax g b e c) == 1200000 ->
      incomeTax (calculateTax g b e c) == 60000)) /\
  (forall b e c,
     taxableIncome (calculateTax 475000 b e c) == 400000 /\
     taxableIncome (calculateTax 875000 b e c) == 800000 /\
     taxableIncome (calculateTax 1275000 b e c) == 1200000) /\
  (forall e c,
     incomeTax (calculateTax 475000 50 e c) = 0 /\
     incomeTax (calculateTax 875000 50 e c) = 20000 /\
     incomeTax (calculateTax 1275000 50 e c) = 60000)%float.
Proof.
  split; [| split; [| split; [| split]]].
  - intros g1 b1 e1 c1 g2 b2 e2 c2 Hle.
    rewrite !incomeTax_slabTax. now apply slabTax_monotone.
  - intros eps Heps. exists eps. split; [exact Heps |].
    intros g1 b1 e1 c1 g2 b2 e2 c2 Hclose.
    rewrite !incomeTax_slabTax.
    pose proof (slabTax_lipschitz (taxableIncome (calculateTax g1 b1 e1 c1))
                  (taxableIncome (calculateTax g2 b2 e2 c2))).
    pose proof (Qabs_nonneg (taxableIncome (calculateTax g1 b1 e1 c1)
                             - taxableIncome (calculateTax g2 b2 e2 c2))).
    lra.
  - intros g b e c. rewrite incomeTax_slabTax.
    generalize (taxableIncome (calculateTax g b e c)). intros t.
    repeat split; intros Ht; exact_ops; minmax_lra.
  - intros b e c. rewrite !taxableIncome_exact. repeat split; minmax_lra.
  - intros e c. repeat split; destruct e, c; vm_compute; reflexivity.
Qed.


(** C4, as amended: in any arithmetic basicPay is
    grossSalary * (max(50, basicPayPercentage) / 100), the division being
    done before the multiplication; basicPay = grossSalary when
    basicPayPercentage is 100; and basicPay >= grossSalary * 0.5 for every
    grossSalary >= 0 (and every basicPayPercentage that is a finite
    number). *)
Theorem basicPay_floor :
  (forall (num : Type) (N : Number num) (x y : num) e c,
     basicPay (calculateTax x y e c)
     = num_mul x (num_div (Math_max (lit 50) y) (lit 100))) /\
  (forall g b e c,
     b == 100 -> basicPay (calculateTax g b e c) == g) /\
  (forall g b e c,
     0 <= g -> g * 0.5 <= basicPay (calculateTax g b e c)).
Proof.
  split; [| split].
  - intros num N x y e c. reflexivity.
  - intros g b e c Hb. rewrite basicPay_exact.
    rewrite (Q.max_r 50 b) by lra. rewrite Hb. field.
  - intros g b e c Hg. rewrite basicPay_exact.
    pose proof (basic_fraction_floor b) as Hb.
    assert (0 <= g * (Qmax 50 b / 100 - 0.5)) as Hprod
      by (apply Qmult_le_0_compat; lra).
    lra.
Qed.

(** C7: for grossSalary >= 0, taxableIncome = max(0, grossSalary - 75000),
    that is 0 up to a gross salary of 75000 and grossSalary - 75000 above;
    and for 0 <= g1 <= g2, other inputs fixed, the taxable income for g1 is
    at most the taxable income for g2. *)
Theorem taxableIncome_formula_monotone :
  (forall g b e c,
     0 <= g ->
     taxableIncome (calculateTax g b e c) == Qmax 0 (g - 75000) /\
     (g <= 75000 -> taxableIncome (calculateTax g b e c) == 0) /\
     (75000 <= g -> taxableIncome (calculateTax g b e c) == g - 75000)) /\
  (forall g1 g2 b e c,
     0 <= g1 -> g1 <= g2 ->
     taxableIncome (calculateTax g1 b e c)
       <= taxableIncome (calculateTax g2 b e c)).
Proof.
  split.
  - intros g b e c Hg. rewrite taxableIncome_exact.
    repeat split; try reflexivity; intros Hcmp; minmax_lra.
  - intros g1 g2 b e c Hg1 Hle. rewrite !taxableIncome_exact. minmax_lra.
Qed.



(** C9, as amended: for every input whose gross salary is a number,
    negative and infinite ones included, and whatever the basic-pay
    percentage, taxableIncome >= 0, incomeTax >= 0, cess >= 0 and
    totalTax >= 2400; replayed in binary64 at the two infinite gross
    salaries. *)
Theorem taxes_nonnegative :
  (forall g b e c,
     let r := calculateTax g b e c in
     0 <= taxableIncome r /\ 0 <= incomeTax r /\ 0 <= cess r /\
     2400 <= totalTax r) /\
  (forall (b : float) e c,
     let r := calculateTax infinity b e c in
     (0 <=? taxableIncome r) = true /\ (0 <=? incomeTax r) = true /\
     (0 <=? cess r) = true /\ (2400 <=? totalTax r) = true)%float /\
  (forall (b : float) e c,
     let r := calculateTax neg_infinity b e c in
     (0 <=? taxableIncome r) = true /\ (0 <=? incomeTax r) = true /\
     (0 <=? cess r) = true /\ (2400 <=? totalTax r) = true)%float.
Proof.
  split; [| split].
  - intros g b e c. cbv zeta.
    pose proof (slabTax_nonneg (taxableIncome (calculateTax g b e c))) as Hslab.
    pose proof (totalTax_lower_bound g b e c) as Htotal.
    rewrite cess_exact, incomeTax_slabTax, taxableIncome_exact in *.
    repeat split; try assumption; try lra.
    apply Q.le_max_l.
  - intros b e c. cbv zeta. repeat split; vm_compute; reflexivity.
  - intros b e c. cbv zeta. repeat split; vm_compute; reflexivity.
Qed.

(** C10: calculateTax(0, 50, false, false) has inHandSalary = -2400 and
    inHandSalaryPerMonth = -200, in exact arithmetic and in binary64; the
    in-hand salary is not floored at zero, and it is negative for every
    gross salary from 0 up to, but excluding, 2400, whatever the other
    inputs. *)
Theorem inHandSalary_negative_for_small_gross :
  (let r := calculateTax (num := Q) 0 50 false false in
   inHandSalary r == -2400 /\ inHandSalaryPerMonth r == -200) /\
  (let r := calculateTax (num := float) 0 50 false false in
   inHandSalary r = -2400 /\ inHandSalaryPerMonth r = -200)%float /\
  (forall g b e c,
     0 <= g -> g < 2400 -> inHandSalary (calculateTax g b e c) < 0).
Proof.
  split; [| split].
  - cbv zeta. split; vm_compute; reflexivity.
  - cbv zeta. split; vm_compute; reflexivity.
  - intros g b e c Hg Hsmall.
    pose proof (basicPay_nonneg g b e c Hg) as Hbasic.
    pose proof (totalTax_lower_bound g b e c) as Htotal.
    rewrite inHandSalary_exact, netSalary_exact, gratuityAmount_exact.
    change (employerPF (calculateTax g b e c))
      with (employeePF (calculateTax g b e c)).
    rewrite employeePF_exact. rewrite basicPay_exact in Hbasic.
    destruct e, c; lra.
Qed.

(** Every non-negative taxable income is the taxable income of a run. *)
Lemma taxableIncome_attained t b e c :
  0 <= t -> taxableIncome (calculateTax (t + 75000) b e c) == t.
Proof. intros Ht. rewrite taxableIncome_exact. minmax_lra. Qed.

End Exact.

(** ** Concrete runs *)

(** C1 (Scenario 1): calculateTax(1200000, 50, false, false) has
    basicPay = 600000, employeePF = 72000, taxableIncome = 1125000,
    incomeTax = 52500, cess = 2100, professionalTax = 2400,
    totalTax = 57000, netSalary = 1128000, inHandSalary = 1071000 and
    inHandSalaryPerMonth = 89250; in exact arithmetic and, bit for bit, in
    binary64. *)
Theorem scenario1_values :
  (let r := calculateTax (num := Q) 1200000 50 false false in
   basicPay r == 600000 /\ employeePF r == 72000 /\
   taxableIncome r == 1125000 /\ incomeTax r == 52500 /\
   cess r == 2100 /\ professionalTax r == 2400 /\
   totalTax r == 57000 /\ netSalary r == 1128000 /\
   inHandSalary r == 1071000 /\ inHandSalaryPerMonth r == 89250)%Q
  /\
  (let r := calculateTax (num := float) 1200000 50 false false in
   basicPay r = 600000 /\ employeePF r = 72000 /\
   taxableIncome r = 1125000 /\ incomeTax r = 52500 /\
   cess r = 2100 /\ professionalTax r = 2400 /\
   totalTax r = 57000 /\ netSalary r = 1128000 /\
   inHandSalary r = 1071000 /\ inHandSalaryPerMonth r = 89250)%float.
Proof. split; cbv zeta; repeat split; vm_compute; reflexivity. Qed.

(** Scenario 2: with employerPfIncluded = true the net salary and the
    in-hand salary of Scenario 1 drop by the employer's contribution and the
    total tax stays at 57000. *)
Lemma scenario2_values :
  (let r := calculateTax (num := Q) 1200000 50 true false in
   netSalary r == 1056000 /\ inHandSalary r == 999000 /\
   totalTax r == 57000)%Q
  /\
  (let r := calculateTax (num := float) 1200000 50 true false in
   netSalary r = 1056000 /\ inHandSalary r = 999000 /\
   totalTax r = 57000)%float.
Proof. split; cbv zeta; repeat split; vm_compute; reflexivity. Qed.


(** C9 as stated fails for a gross salary that is NaN: the clamps
    [Math.max(0, ...)] return NaN, and none of the four comparisons holds. *)
Lemma taxes_not_nonnegative_for_NaN :
  (let r := calculateTax (num := float) nan 50 false false in
   taxableIncome r = nan /\ incomeTax r = nan /\ cess r = nan /\
   totalTax r = nan /\
   (0 <=? taxableIncome r) = false /\ (0 <=? incomeTax r) = false /\
   (0 <=? cess r) = false /\ (2400 <=? totalTax r) = false)%float.
Proof. cbv zeta. repeat split; vm_compute; reflexivity. Qed.

Section Runs.

Local Open Scope Q_scope.

(** C2 at two runs with taxable incomes 800000 and 1200000. *)
Lemma incomeTax_continuous_nondecreasing_witness :
  taxableIncome (calculateTax 875000 50 false false)
    <= taxableIncome (calculateTax 1275000 60 true true) /\
  incomeTax (calculateTax 875000 50 false false)
    <= incomeTax (calculateTax 1275000 60 true true).
Proof.
  assert (taxableIncome (calculateTax 875000 50 false false)
            <= taxableIncome (calculateTax 1275000 60 true true)) as Hle
    by (apply Qle_bool_imp_le; vm_compute; reflexivity).
  split; [exact Hle |].
  exact (proj1 incomeTax_continuous_nondecreasing
           875000 50 false false 1275000 60 true true Hle).
Defined.



(** C4 as stated fails for a negative gross salary: at grossSalary = -100
    and basicPayPercentage = 100 the basic pay is -100, below
    grossSalary * 0.5 = -50, in exact arithmetic and in binary64.  In
    binary64 the formula also fails when the multiplication is done first:
    at (700000, 55) the basic pay is 385000.00000000006 while
    700000 * 55 / 100 is 385000; and a NaN percentage gives a NaN basic
    pay, which is not at least half of the gross salary. *)
Lemma basicPay_below_half_of_negative_gross :
  (basicPay (calculateTax (-100) 100 false false) == -100 /\
   ~ -100 * 0.5 <= basicPay (calculateTax (-100) 100 false false)) /\
  (let r := calculateTax (num := float) (-100) 100 false false in
   basicPay r = -100 /\ (-100 * 0.5 <=? basicPay r) = false)%float /\
  (let r := calculateTax (num := float) 700000 55 false false in
   basicPay r = 385000.00000000006 /\ 700000 * 55 / 100 = 385000 /\
   (basicPay r =? 700000 * 55 / 100) = false)%float /\
  (let r := calculateTax (num := float) 700000 nan false false in
   basicPay r = nan /\ (700000 * 0.5 <=? basicPay r) = false)%float.
Proof.
  split; [split | split; [| split]].
  - vm_compute. reflexivity.
  - vm_compute. intros Hle. apply Hle. reflexivity.
  - cbv zeta. split; vm_compute; reflexivity.
  - cbv zeta. repeat split; vm_compute; reflexivity.
  - cbv zeta. split; vm_compute; reflexivity.
Qed.

(** C4 as amended, at grossSalary = 1200000 and basicPayPercentage = 100. *)
Lemma basicPay_floor_witness :
  (100 == 100 /\ basicPay (calculateTax 1200000 100 false false) == 1200000) /\
  (0 <= 1200000 /\
   1200000 * 0.5 <= basicPay (calculateTax 1200000 100 false false)).
Proof.
  assert (100 == 100) as Hb by reflexivity.
  assert (0 <= 1200000) as Hg
    by (apply Qle_bool_imp_le; vm_compute; reflexivity).
  split; (split; [assumption |]).
  - exact (proj1 (proj2 basicPay_floor) 1200000 100 false false Hb).
  - exact (proj2 (proj2 basicPay_floor) 1200000 100 false false Hg).
Defined.

(** C7 at gross salaries 50000 and 200000. *)
Lemma taxableIncome_formula_monotone_witness :
  0 <= 50000 /\ 50000 <= 200000 /\
  taxableIncome (calculateTax 50000 50 false false)
    <= taxableIncome (calculateTax 200000 50 false false).
Proof.
  assert (0 <= 50000) as Hg
    by (apply Qle_bool_imp_le; vm_compute; reflexivity).
  assert (50000 <= 200000) as Hle
    by (apply Qle_bool_imp_le; vm_compute; reflexivity).
  split; [exact Hg | split; [exact Hle |]].
  exact (proj2 taxableIncome_formula_monotone
           50000 200000 50 false false Hg Hle).
Defined.

(** C10 at grossSalary = 2000 with both deductions switched on. *)
Lemma inHandSalary_negative_for_small_gross_witness :
  0 <= 2000 /\ 2000 < 2400 /\
  inHandSalary (calculateTax 2000 80 true true) < 0.
Proof.
  assert (0 <= 2000) as Hg
    by (apply Qle_bool_imp_le; vm_compute; reflexivity).
  assert (2000 < 2400) as Hsmall by (vm_compute; reflexivity).
  split; [exact Hg | split; [exact Hsmall |]].
  exact (proj2 (proj2 inHandSalary_negative_for_small_gross)
           2000 80 true true Hg Hsmall).
Defined.

End Runs.

(** * Further properties of the calculator *)

Section CalculatorExact.

Local Open Scope Q_scope.

Implicit Types (g b t : Q) (e c : bool).

Ltac split_minmax :=
  repeat match goal with
  | |- context [Qmax ?x ?y] =>
      let m := fresh "m" in
      pose proof (Q.max_spec x y); set (m := Qmax x y) in *; clearbody m
  | |- context [Qmin ?x ?y] =>
      let m := fresh "m" in
      pose proof (Q.min_spec x y); set (m := Qmin x y) in *; clearbody m
  | _ : context [Qmax ?x ?y] |- _ =>
      let m := fresh "m" in
      pose proof (Q.max_spec x y); set (m := Qmax x y) in *; clearbody m
  | _ : context [Qmin ?x ?y] |- _ =>
      let m := fresh "m" in
      pose proof (Q.min_spec x y); set (m := Qmin x y) in *; clearbody m
  end.

Ltac unfold_fields :=
  cbv [calculateTax grossSalary basicPay standardDeduction taxableIncome
       incomeTax cess totalTax netSalary employeePF employerPF gratuityAmount
       professionalTax totalDeductions inHandSalary inHandSalaryPerMonth
       slabTax lit num_add num_sub num_mul num_div Math_max Math_min Q_Number].

(** *** The slab schedule between its two extreme rates *)

Lemma slabTax_between_rates t :
  0.05 * Qmax 0 (t - 400000) <= slabTax t <= 0.3 * Qmax 0 (t - 400000).
Proof.
  pose proof (slabs_partition t) as Hsum.
  pose proof (slab_nonneg 400000 800000 t).
  pose proof (slab_nonneg 800000 1200000 t).
  pose proof (slab_nonneg 1200000 1600000 t).
  pose proof (slab_nonneg 1600000 2000000 t).
  pose proof (slab_nonneg 2000000 2400000 t).
  pose proof (Q.le_max_l 0 (t - 2400000)).
  unfold_fields. lra.
Qed.

(** *** The basic-pay fraction *)

Lemma basic_fraction_range b :
  b <= 100 -> 0.5 <= Qmax 50 b / 100 <= 1.
Proof.
  intros Hb.
  assert (Qmax 50 b / 100 == Qmax 50 b * 0.01) as -> by field.
  split_minmax. lra.
Qed.

Lemma basic_fraction_low b : b <= 50 -> Qmax 50 b / 100 == 0.5.
Proof.
  intros Hb.
  assert (Qmax 50 b / 100 == Qmax 50 b * 0.01) as -> by field.
  split_minmax. lra.
Qed.

(** The part of a gross salary taken by the basic pay. *)
Lemma basic_share g b :
  0 <= g -> b <= 100 ->
  g * 0.5 <= g * (Qmax 50 b / 100) <= g.
Proof.
  intros Hg Hb. pose proof (basic_fraction_range b Hb) as Hp.
  set (p := Qmax 50 b / 100) in *.
  assert (0 <= g * (p - 0.5)) by (apply Qmult_le_0_compat; lra).
  assert (0 <= g * (1 - p)) by (apply Qmult_le_0_compat; lra).
  lra.
Qed.

(** A basic-pay percentage of at most 50 is replaced by 50: the result is
    the one computed for 50. *)
Theorem low_basic_percentage_ignored g b e c :
  b <= 50 -> TaxResults_eq (calculateTax g b e c) (calculateTax g 50 e c).
Proof.
  intros Hb.
  pose proof (basic_fraction_low b Hb) as Hlow.
  pose proof (basic_fraction_low 50 (Qle_refl 50)) as Hfifty.
  unfold TaxResults_eq.
  destruct e, c; unfold_fields; repeat split;
    rewrite ?Hlow, ?Hfifty; reflexivity.
Qed.

(** Up to a gross salary of 475000 the only tax is the professional tax. *)
Theorem no_income_tax_up_to_475000 g b e c :
  g <= 475000 ->
  incomeTax (calculateTax g b e c) == 0 /\
  cess (calculateTax g b e c) == 0 /\
  totalTax (calculateTax g b e c) == 2400.
Proof.
  intros Hg.
  assert (taxableIncome (calculateTax g b e c) <= 400000) as Ht
    by (rewrite taxableIncome_exact; split_minmax; lra).
  pose proof (slabTax_below_first_slab _ Ht) as Hzero.
  rewrite totalTax_exact, cess_exact, incomeTax_slabTax.
  repeat split; lra.
Qed.

(** The income tax lies between 5% and 30% of the taxable income above
    400000, and so never exceeds 30% of the taxable income. *)
Theorem incomeTax_between_rates g b e c :
  let r := calculateTax g b e c in
  0.05 * Qmax 0 (taxableIncome r - 400000) <= incomeTax r /\
  incomeTax r <= 0.3 * Qmax 0 (taxableIncome r - 400000) /\
  incomeTax r <= 0.3 * taxableIncome r.
Proof.
  cbv zeta. rewrite incomeTax_slabTax.
  pose proof (slabTax_between_rates (taxableIncome (calculateTax g b e c)))
    as Hrates.
  assert (0 <= taxableIncome (calculateTax g b e c)) as Hpos
    by (rewrite taxableIncome_exact; apply Q.le_max_l).
  revert Hrates Hpos.
  generalize (slabTax (taxableIncome (calculateTax g b e c))).
  generalize (taxableIncome (calculateTax g b e c)).
  intros t s Hrates Hpos. split_minmax. lra.
Qed.




(** The in-hand salary written with the basic-pay fraction [p], the
    deduction rate [k] on the basic pay and the slab tax. *)
Lemma inHandSalary_decomposition g b e c :
  inHandSalary (calculateTax g b e c) ==
  g - g * (Qmax 50 b / 100)
        * ((if e then 0.24 else 0.12) + (if c then 0.0481 else 0))
    - (1.04 * slabTax (Qmax 0 (g - 75000)) + 2400).
Proof. destruct e, c; unfold_fields; ring. Qed.



(** With a basic-pay percentage of at most 100 the in-hand salary is
    positive from a gross salary of 3372 on. *)
Theorem inHandSalary_positive g b e c :
  b <= 100 -> 3372 <= g -> 0 < inHandSalary (calculateTax g b e c).
Proof.
  intros Hb Hg.
  assert (0 <= g) as Hpos by lra.
  pose proof (basic_share g b Hpos Hb) as Hshare.
  pose proof (slabTax_between_rates (Qmax 0 (g - 75000))) as Hrates.
  rewrite inHandSalary_decomposition.
  revert Hrates. generalize (slabTax (Qmax 0 (g - 75000))). intros s Hrates.
  set (p := Qmax 50 b / 100) in *.
  split_minmax. destruct e, c; lra.
Qed.

End CalculatorExact.

(** *** Gross salaries that are not finite, in binary64 *)

(** The clamps [Math.max(0, ...)] do not absorb NaN: with a NaN gross
    salary the taxable income, the income tax, the cess and the total tax
    are NaN.  With a gross salary of +Infinity the four are +Infinity, and
    with -Infinity they are 0, 0, 0 and 2400.  The other inputs play no
    part. *)
Theorem non_finite_gross_salary (b : float) (e c : bool) :
  (let r := calculateTax nan b e c in
   taxableIncome r = nan /\ incomeTax r = nan /\ cess r = nan /\
   totalTax r = nan) /\
  (let r := calculateTax infinity b e c in
   taxableIncome r = infinity /\ incomeTax r = infinity /\
   cess r = infinity /\ totalTax r = infinity) /\
  (let r := calculateTax neg_infinity b e c in
   taxableIncome r = 0%float /\ incomeTax r = 0%float /\
   cess r = 0%float /\ totalTax r = 2400%float).
Proof. cbv zeta. repeat split; vm_compute; reflexivity. Qed.

(** * Properties of the results table *)

Section TableAnyArithmetic.

Context {num : Type} `{Number num}.
Variable formatCurrency : num -> string.
Variable formatLPA : num -> string.

Local Open Scope string_scope.

Implicit Types (results : TaxResults num).
Implicit Types (isMounted gratuityIncluded employerPfIncluded : bool).

Lemma tableBody_keys (rs : list Row) :
  map key (tableBody formatCurrency formatLPA rs) = map label rs.
Proof. unfold tableBody. rewrite map_map. reflexivity. Qed.

Lemma rows_labels results gratuityIncluded employerPfIncluded :
  map label (rows results gratuityIncluded employerPfIncluded) =
  ([ "Gross Salary"; "Taxable Income (Gross Salary - Standard Deduction)";
     "Basic Pay"; "Employee PF Deduction (6%)" ] ++
   (if employerPfIncluded
    then [ "Employer PF Deduction (6%)"; "Total PF Deduction (12%)" ] else []) ++
   (if gratuityIncluded then [ "Gratuity Deduction (4.81%)" ] else []) ++
   [ "Net Salary (After Deductions)"; "Income Tax";
     "Health & Education CESS (4%)"; "Professional Tax"; "Total Tax";
     "In-hand Salary Per Year" ])%list.
Proof. destruct gratuityIncluded, employerPfIncluded; reflexivity. Qed.

(** Nothing is rendered before the component is mounted; once it is, the
    card shows [cardDescription] and one body row per row, keyed by its
    label, and the React keys are pairwise distinct whatever the results
    and the toggles. *)
Theorem table_keys_distinct isMounted results gratuityIncluded employerPfIncluded :
  match TaxResultsTable formatCurrency formatLPA isMounted results
          gratuityIncluded employerPfIncluded with
  | None => isMounted = false
  | Some (description, body) =>
      isMounted = true /\
      description = cardDescription gratuityIncluded employerPfIncluded /\
      map key body = map label (rows results gratuityIncluded employerPfIncluded) /\
      NoDup (map key body)
  end.
Proof.
  unfold TaxResultsTable. destruct isMounted; cbn [negb]; [| reflexivity].
  rewrite tableBody_keys. repeat split. rewrite rows_labels.
  destruct gratuityIncluded, employerPfIncluded; cbn [app];
    repeat (constructor; [cbn [In]; intuition discriminate |]);
    constructor.
Qed.

(** The table has ten rows that are always shown, two more when the
    employer's PF is included and one more when gratuity is: the rows
    "Employer PF Deduction (6%)" and "Total PF Deduction (12%)" appear
    exactly when employerPfIncluded is set, the row
    "Gratuity Deduction (4.81%)" exactly when gratuityIncluded is set. *)
Theorem optional_rows results gratuityIncluded employerPfIncluded :
  let ls := map label (rows results gratuityIncluded employerPfIncluded) in
  List.length ls =
    (10 + (if employerPfIncluded then 2 else 0)
        + (if gratuityIncluded then 1 else 0))%nat /\
  (In "Employer PF Deduction (6%)" ls <-> employerPfIncluded = true) /\
  (In "Total PF Deduction (12%)" ls <-> employerPfIncluded = true) /\
  (In "Gratuity Deduction (4.81%)" ls <-> gratuityIncluded = true) /\
  (forall l,
     In l [ "Gross Salary";
            "Taxable Income (Gross Salary - Standard Deduction)";
            "Basic Pay"; "Employee PF Deduction (6%)";
            "Net Salary (After Deductions)"; "Income Tax";
            "Health & Education CESS (4%)"; "Professional Tax"; "Total Tax";
            "In-hand Salary Per Year" ] ->
     In l ls).
Proof.
  cbv zeta. rewrite rows_labels.
  destruct gratuityIncluded, employerPfIncluded; cbn [app List.length In];
    repeat split; try discriminate; intuition (try discriminate).
Qed.

(** The card description is never left empty; it mentions gratuity exactly
    when gratuityIncluded is set and the combined 24% exactly when
    employerPfIncluded is set. *)
Theorem cardDescription_matches_toggles gratuityIncluded employerPfIncluded :
  let d := cardDescription gratuityIncluded employerPfIncluded in
  d <> "" /\
  (index 0 "Gratuity" d <> None <-> gratuityIncluded = true) /\
  (index 0 "24%" d <> None <-> employerPfIncluded = true).
Proof.
  cbv zeta.
  destruct gratuityIncluded, employerPfIncluded; vm_compute;
    repeat split; try discriminate; try congruence; intuition discriminate.
Qed.

(** On a result of [calculateTax] the row "Employer PF Deduction (6%)",
    which reads the field employeePF, shows the value of the field
    employerPF, and the last body row shows the in-hand salary with the
    field inHandSalaryPerMonth in its per-month cell. *)
Theorem table_reads_calculator (g b : num) (e c : bool) gratuityIncluded :
  let r := calculateTax g b e c in
  valueOf "Employer PF Deduction (6%)" (rows r gratuityIncluded true)
    = Some (employerPF r) /\
  forall employerPfIncluded,
    In {| key := "In-hand Salary Per Year";
          cells := [ "In-hand Salary Per Year";
                     formatCurrency (inHandSalary r);
                     formatCurrency (inHandSalaryPerMonth r);
                     formatLPA (inHandSalary r) ] |}
       (tableBody formatCurrency formatLPA
          (rows r gratuityIncluded employerPfIncluded)).
Proof.
  cbv zeta. split.
  - destruct gratuityIncluded; reflexivity.
  - intros employerPfIncluded. unfold tableBody, rows.
    rewrite !map_app, !in_app_iff.
    right; right; right; right; right. left. reflexivity.
Qed.


End TableAnyArithmetic.

Section TableExact.

Local Open Scope Q_scope.
Local Open Scope string_scope.

Implicit Types (g b : Q) (e c : bool).

Ltac unfold_rows :=
  cbv [calculateTax grossSalary basicPay standardDeduction taxableIncome
       incomeTax cess totalTax netSalary employeePF employerPF gratuityAmount
       professionalTax totalDeductions inHandSalary inHandSalaryPerMonth
       lit num_add num_sub num_mul num_div Math_max Math_min Q_Number].

(** The PF rows on a result of [calculateTax]: the employee row carries
    12% of the basic pay and the total row 24% of it, the sum of the two
    PF fields; when the basic-pay percentage is at most 50 these are the 6%
    and 12% of the gross salary that the labels announce. *)
Theorem pf_rows_percentages g b e c gratuityIncluded :
  let r := calculateTax g b e c in
  let rs := rows r gratuityIncluded true in
  exists v w,
    valueOf "Employee PF Deduction (6%)" rs = Some v /\
    valueOf "Total PF Deduction (12%)" rs = Some w /\
    v == 0.12 * basicPay r /\ w == 0.24 * basicPay r /\
    w == employeePF r + employerPF r /\
    (b <= 50 -> v == 0.06 * g /\ w == 0.12 * g).
Proof.
  cbv zeta.
  exists (employeePF (calculateTax g b e c)),
         (employeePF (calculateTax g b e c) * 2).
  split; [destruct gratuityIncluded; reflexivity |].
  split; [destruct gratuityIncluded; reflexivity |].
  split; [unfold_rows; ring |].
  split; [unfold_rows; ring |].
  split; [unfold_rows; ring |].
  intros Hb.
  assert (Qmax 50 b == 50) as Hmax by (apply Q.max_l; exact Hb).
  split; unfold_rows; rewrite Hmax; field.
Qed.

End TableExact.

(** * Concrete runs of the further properties *)

Section FurtherRuns.

Local Open Scope Q_scope.
Local Open Scope string_scope.

Ltac closed_le := apply Qle_bool_imp_le; vm_compute; reflexivity.
Ltac closed_lt := vm_compute; reflexivity.

Lemma low_basic_percentage_ignored_witness :
  30 <= 50 /\
  TaxResults_eq (calculateTax 1200000 30 true true)
                (calculateTax 1200000 50 true true).
Proof.
  assert (30 <= 50) as Hb by closed_le.
  split; [exact Hb |].
  exact (low_basic_percentage_ignored 1200000 30 true true Hb).
Defined.

Lemma no_income_tax_up_to_475000_witness :
  300000 <= 475000 /\
  incomeTax (calculateTax 300000 50 false false) == 0 /\
  cess (calculateTax 300000 50 false false) == 0 /\
  totalTax (calculateTax 300000 50 false false) == 2400.
Proof.
  assert (300000 <= 475000) as Hg by closed_le.
  split; [exact Hg |].
  exact (no_income_tax_up_to_475000 300000 50 false false Hg).
Defined.





Lemma inHandSalary_positive_witness :
  100 <= 100 /\ 3372 <= 3372 /\
  0 < inHandSalary (calculateTax 3372 100 true true).
Proof.
  assert (100 <= 100) as Hb by closed_le.
  assert (3372 <= 3372) as Hg by closed_le.
  split; [exact Hb | split; [exact Hg |]].
  exact (inHandSalary_positive 3372 100 true true Hb Hg).
Defined.

Lemma pf_rows_percentages_witness :
  40 <= 50 /\
  exists v w,
    valueOf "Employee PF Deduction (6%)"
      (rows (calculateTax 1200000 40 true false) false true) = Some v /\
    valueOf "Total PF Deduction (12%)"
      (rows (calculateTax 1200000 40 true false) false true) = Some w /\
    v == 0.06 * 1200000 /\ w == 0.12 * 1200000.
Proof.
  assert (40 <= 50) as Hb by closed_le.
  split; [exact Hb |].
  destruct (pf_rows_percentages 1200000 40 true false false)
    as (v & w & Hv & Hw & _ & _ & _ & Hshare).
  exists v, w. split; [exact Hv | split; [exact Hw |]].
  exact (Hshare Hb).
Defined.

End FurtherRuns.
